(** * Verification of the robot mission controller (robot_controller.py)

    The development embeds the simulator client helpers and
    [run_autonomous_mission] of [robot_controller.py] and states the
    properties of the controller over that embedding.

    Modelling conventions.
    - Python floats (headings, turns, distances, times) are exact rationals
      [Q]: every property below is one of exact arithmetic, and binary64
      rounding is outside the model.  Equality of computed rationals is
      therefore [==] (Qeq); literal constants are compared with [=].
    - The simulator, the wall clock and the random generator are the
      environment [Env]: the n-th answer to GET /collisions, the n-th value
      of [random.uniform(120, 180)] and the time the n-th blocking call
      takes beyond its nominal duration.
    - Effects are a state monad over [World]: the clock, the cursors into
      the environment and the chronological trace of the calls issued.
      [print] is not modelled.
    - The level functions [run_level_1], [run_level_2] and [run_level_3]
      run over [LevelWorld], the world of the missions together with the
      obstacle-motion requests; their value is the average (the list of
      averages) they print (plot).  The plotting calls are not modelled. *)

From Stdlib Require Import ZArith QArith Qround Qabs Qminmax Lia Lqa List.
From stdpp Require Import base option strings gmap.
Import ListNotations.

Local Open Scope Q_scope.

(** ** Tuning parameters (module level constants of the source) *)

Definition FORWARD_SPEED : Q := 25.
Definition TURN_SPEED : Q := 25.
Definition AVOIDANCE_BACKUP : Q := -25.

(** ** Arithmetic of the control law *)

(** Python's [x % m] on floats for a positive modulus, in exact arithmetic:
    [x - m * floor (x / m)]. *)
Definition pymod (x m : Q) : Q := x - m * inject_Z (Qfloor (x / m)).

(** [np.clip(a, a_min, a_max)] is [minimum(a_max, maximum(a, a_min))]. *)
Definition clip (a a_min a_max : Q) : Q := Qmin a_max (Qmax a a_min).

(** Line 100: [(target_heading - current_heading + 180) % 360 - 180]. *)
Definition heading_error (target_heading current_heading : Q) : Q :=
  pymod (target_heading - current_heading + 180) 360 - 180.

(** Line 101: [np.clip(heading_error, -TURN_SPEED, TURN_SPEED)]. *)
Definition turn_correction (target_heading current_heading : Q) : Q :=
  clip (heading_error target_heading current_heading) (- TURN_SPEED) TURN_SPEED.

(** Lines 91 and 105: [(current_heading + turn) % 360]. *)
Definition add_turn (current_heading turn : Q) : Q :=
  pymod (current_heading + turn) 360.

(** Line 67: the corner table, a Python dict. *)
Definition target_headings : gmap string Z :=
  <["NE" := 45%Z]> (<["NW" := 315%Z]> (<["SE" := 135%Z]> (<["SW" := 225%Z]> ∅))).

(** ** The simulator client *)

(** What a GET /collisions can come back with.  A JSON object is a dict;
    its fields carry integers, as the interface of the simulator has them. *)
Inductive response : Type :=
| ConnectionError                    (* [requests.get] raises *)
| InvalidJson                        (* [response.json()] raises *)
| NotAnObject                        (* the decoded value has no [.get] *)
| Object (fields : gmap string Z).   (* a JSON object *)

(** Lines 44-49: [response.json().get('count', 0)], and [-1] from the
    [except Exception] handler. *)
Definition collision_count_of (r : response) : Z :=
  match r with
  | ConnectionError => -1
  | InvalidJson => -1
  | NotAnObject => -1
  | Object fields => default 0%Z (fields !! "count")
  end.

(** The calls the controller issues, in the order it issues them. *)
Inductive event : Type :=
| PostReset
| PostGoal (corner : string)
| PostMove (turn distance : Q)
| GetCollisions (returned : Z)
| Sleep (seconds : Q).

Record Env : Type := mkEnv {
  read_of : nat -> response;   (* n-th answer to GET /collisions *)
  draw_of : nat -> Q;          (* n-th value of random.uniform(120, 180) *)
  delay_of : nat -> Q          (* extra time taken by the n-th blocking call *)
}.

Record World : Type := mkWorld {
  clock : Q;
  reads : nat;
  draws : nat;
  calls : nat;
  trace : list event
}.

(** [random.uniform(a, b)] returns [N] with [a <= N <= b]; blocking calls
    never take negative time. *)
Definition uniform_in_range (env : Env) : Prop :=
  forall n, 120 <= draw_of env n <= 180.

Definition delays_nonneg (env : Env) : Prop :=
  forall n, 0 <= delay_of env n.

Definition M (A : Type) : Type := World -> A * World.

Definition ret {A} (a : A) : M A := fun w => (a, w).

Definition bind {A B} (c : M A) (k : A -> M B) : M B :=
  fun w => let (a, w') := c w in k a w'.

Notation "x <- c ;; k" := (bind c (fun x => k))
  (at level 100, c at next level, right associativity).
Notation "c ;; k" := (bind c (fun _ => k))
  (at level 100, right associativity).

Section Client.
Variable env : Env.

Definition emit (e : event) : M unit := fun w =>
  (tt, mkWorld (clock w) (reads w) (draws w) (calls w) (trace w ++ [e])).

(** A blocking call: the clock moves by the nominal duration and by what
    the environment adds for this call. *)
Definition block (nominal : Q) : M unit := fun w =>
  (tt, mkWorld (clock w + nominal + delay_of env (calls w))
               (reads w) (draws w) (S (calls w)) (trace w)).

Definition time : M Q := fun w => (clock w, w).

Definition sleep (seconds : Q) : M unit :=
  emit (Sleep seconds) ;; block seconds.

Definition uniform_120_180 : M Q := fun w =>
  (draw_of env (draws w),
   mkWorld (clock w) (reads w) (S (draws w)) (calls w) (trace w)).

(** Lines 16-22; a failure of the request is printed and swallowed. *)
Definition set_goal (corner_name : string) : M unit :=
  emit (PostGoal corner_name) ;; block 0.

(** Lines 24-30. *)
Definition reset_simulation : M unit :=
  emit PostReset ;; block 0.

(** Lines 32-40; every exception of the request is swallowed. *)
Definition move_robot_relative (turn_angle distance : Q) : M unit :=
  emit (PostMove turn_angle distance) ;; block 0.

(** Lines 42-49. *)
Definition get_collision_count : M Z := fun w =>
  let c := collision_count_of (read_of env (reads w)) in
  (block 0 ;; emit (GetCollisions c) ;; ret c)
    (mkWorld (clock w) (S (reads w)) (draws w) (calls w) (trace w)).

(** ** The mission controller *)

Record LoopState : Type := mkLoop {
  current_heading : Q;
  last_collision_count : Z
}.

Definition run_duration_seconds : Q := 90.

(** Lines 70 and 74: the loop variables before the first cycle. *)
Definition mission_start (last : Z) : LoopState := mkLoop 0 last.

(** Lines 81-96: the randomized escape; returns the new heading. *)
Definition escape (heading : Q) : M Q :=
  move_robot_relative 0 AVOIDANCE_BACKUP ;;
  sleep 0.4 ;;
  random_turn <- uniform_120_180 ;;
  move_robot_relative random_turn 0 ;;
  sleep 0.4 ;;
  move_robot_relative 0 FORWARD_SPEED ;;
  sleep 0.4 ;;
  ret (add_turn heading random_turn).

(** Lines 99-105: one seek command; returns the new heading. *)
Definition seek (target_heading heading : Q) : M Q :=
  move_robot_relative (turn_correction target_heading heading) FORWARD_SPEED ;;
  ret (add_turn heading (turn_correction target_heading heading)).

(** Lines 77-108: the body of the [while] loop. *)
Definition cycle (target_heading : Q) (st : LoopState) : M LoopState :=
  current_collision_count <- get_collision_count ;;
  heading <- (if (last_collision_count st <? current_collision_count)%Z
              then escape (current_heading st)
              else seek target_heading (current_heading st)) ;;
  last <- get_collision_count ;;
  sleep 0.3 ;;
  ret (mkLoop heading last).

(** Line 76: [time.time() - start_time < run_duration_seconds]. *)
Definition guard (start_time now : Q) : bool :=
  negb (Qle_bool run_duration_seconds (now - start_time)).

(** The [while] loop; [None] when the fuel runs out before the guard
    fails. *)
Fixpoint while_loop (fuel : nat) (target_heading start_time : Q)
    (st : LoopState) : M (option LoopState) :=
  match fuel with
  | O => ret None
  | S fuel' =>
      now <- time ;;
      if guard start_time now
      then st' <- cycle target_heading st ;;
           while_loop fuel' target_heading start_time st'
      else ret (Some st)
  end.

Inductive exn : Type := KeyError (key : string).

Inductive result : Type :=
| Returned (final_collisions : Z)
| Raised (e : exn)
| OutOfFuel.

(** Lines 61-113. *)
Definition run_autonomous_mission (fuel : nat) (goal_corner : string)
    : M result :=
  reset_simulation ;;
  set_goal goal_corner ;;
  sleep 1 ;;
  match target_headings !! goal_corner with
  | None => ret (Raised (KeyError goal_corner))
  | Some target_heading =>
      start_time <- time ;;
      last <- get_collision_count ;;
      exit <- while_loop fuel (inject_Z target_heading) start_time
                (mission_start last) ;;
      match exit with
      | None => ret OutOfFuel
      | Some _ =>
          move_robot_relative 0 0 ;;
          final_collisions <- get_collision_count ;;
          ret (Returned final_collisions)
      end
  end.

(** [n] consecutive executions of the loop body, whatever the clock. *)
Fixpoint cycles (n : nat) (target_heading : Q) (st : LoopState)
    : M LoopState :=
  match n with
  | O => ret st
  | S n' => st' <- cycle target_heading st ;; cycles n' target_heading st'
  end.

End Client.

Definition w0 : World := mkWorld 0 0 0 0 [].

(** ** Derived notions used in the statements *)

(** What the next [get_collision_count] returns, and the test of line 79. *)
Definition next_read (env : Env) (w : World) : Z :=
  collision_count_of (read_of env (reads w)).

Definition refresh_read (env : Env) (w : World) : Z :=
  collision_count_of (read_of env (S (reads w))).

Definition collision_detected (env : Env) (st : LoopState) (w : World) : bool :=
  (last_collision_count st <? next_read env w)%Z.

(** The world after lines 63-65, and lines 110-113. *)
Definition after_setup (env : Env) (goal_corner : string) (w : World) : World :=
  snd ((reset_simulation env ;; set_goal env goal_corner ;; sleep env 1) w).

Definition finish (env : Env) : M result :=
  move_robot_relative env 0 0 ;;
  final_collisions <- get_collision_count env ;;
  ret (Returned final_collisions).

(** The next [n] cycles all take the seek branch. *)
Fixpoint seeking_for (env : Env) (n : nat) (target : Q)
    (st : LoopState) (w : World) : bool :=
  match n with
  | O => true
  | S n' =>
      negb (collision_detected env st w)
      && seeking_for env n' target
           (fst (cycle env target st w)) (snd (cycle env target st w))
  end.


(** ** Concrete environments *)

Definition counting (c : Z) : response := Object {["count" := c]}.

(** The counter stands at 3 and every draw is 150. *)
Definition env_bump : Env :=
  mkEnv (fun _ => counting 3) (fun _ => 150) (fun _ => 0).

(** As [env_bump], with every draw at the upper end of the range. *)
Definition env_180 : Env :=
  mkEnv (fun _ => counting 3) (fun _ => 180) (fun _ => 0).

(** The counter stands at 5; the first two reads fail. *)
Definition env_flaky : Env :=
  mkEnv (fun n => match n with
                  | O | S O => ConnectionError
                  | _ => counting 5
                  end)
        (fun _ => 150) (fun _ => 0).

(** The counter stands at 0 and no collision ever happens. *)
Definition env_idle : Env :=
  mkEnv (fun _ => counting 0) (fun _ => 150) (fun _ => 0).

(** The counter stands at 0; only the very first read fails. *)
Definition env_first_fails : Env :=
  mkEnv (fun n => match n with
                  | O => ConnectionError
                  | _ => counting 0
                  end)
        (fun _ => 150) (fun _ => 0).

(** Every read answers 4 except the 602nd, the final read of a mission
    that runs its 300 cycles without delay. *)
Definition env_last_fails : Env :=
  mkEnv (fun n => if (n =? 601)%nat then ConnectionError else counting 4)
        (fun _ => 150) (fun _ => 0).

(** ** Views of a run: what a trace holds, what a run of cycles did *)

(** The count the simulator answers at position [i]. *)
Definition count_at (env : Env) (i : nat) : Z :=
  collision_count_of (read_of env i).

(** The corners of the goal placements, the motion commands and the sum of
    the commanded turns of a trace, in the order of the trace. *)
Definition goals_of (evs : list event) : list string :=
  flat_map (fun e => match e with PostGoal corner => [corner] | _ => [] end) evs.

Definition resets_of (evs : list event) : nat :=
  length (flat_map (fun e => match e with PostReset => [tt] | _ => [] end) evs).

Definition moves_of (evs : list event) : list (Q * Q) :=
  flat_map (fun e => match e with
                     | PostMove turn distance => [(turn, distance)]
                     | _ => []
                     end) evs.

Definition turns_of (evs : list event) : Q :=
  fold_right (fun e acc => match e with
                           | PostMove turn _ => turn + acc
                           | _ => acc
                           end) 0 evs.

(** The commands a poll cycle may issue: the three steps of the escape, or
    a seek command whose turn is within the turn limit. *)
Definition cycle_move (m : Q * Q) : Prop :=
  (fst m = 0 /\ snd m = AVOIDANCE_BACKUP) \/
  (120 <= fst m <= 180 /\ snd m = 0) \/
  (fst m = 0 /\ snd m = FORWARD_SPEED) \/
  (- TURN_SPEED <= fst m <= TURN_SPEED /\ snd m = FORWARD_SPEED).

(** How many of the next [n] cycles take the escape branch. *)
Fixpoint escapes_in (env : Env) (n : nat) (target : Q)
    (st : LoopState) (w : World) : nat :=
  match n with
  | O => O
  | S n' =>
      ((if collision_detected env st w then 1 else 0)
       + escapes_in env n' target
           (fst (cycle env target st w)) (snd (cycle env target st w)))%nat
  end.

(** What one cycle adds to the trace. *)
Definition cycle_events (env : Env) (target : Q) (st : LoopState) (w : World)
    : list event :=
  if collision_detected env st w
  then [GetCollisions (next_read env w); PostMove 0 AVOIDANCE_BACKUP; Sleep 0.4;
        PostMove (draw_of env (draws w)) 0; Sleep 0.4;
        PostMove 0 FORWARD_SPEED; Sleep 0.4;
        GetCollisions (refresh_read env w); Sleep 0.3]
  else [GetCollisions (next_read env w);
        PostMove (turn_correction target (current_heading st)) FORWARD_SPEED;
        GetCollisions (refresh_read env w); Sleep 0.3].

(** ** The challenge levels *)

(** The simulator as the level functions see it: the world of the missions
    and the obstacle-motion requests issued so far, each with the number of
    mission-level calls traced before it. *)
Record LevelWorld : Type := mkLevel {
  sim : World;
  motion_log : list (nat * bool * Q)
}.

(** Lines 51-58; a failure of the request is printed and swallowed. *)
Definition set_obstacle_motion (env : Env) (enabled : bool) (speed : Q)
    (lw : LevelWorld) : LevelWorld :=
  mkLevel (snd (block env 0 (sim lw)))
          (motion_log lw ++ [(length (trace (sim lw)), enabled, speed)]).

(** The default of the [speed] parameter on line 51. *)
Definition default_obstacle_speed : Q := 0.05.

(** Lines 118, 131 and 146. *)
Definition goal_corners : list string := ["NE"; "NW"; "SE"; "SW"].

(** Line 144. *)
Definition obstacle_speeds : list Q := [0.02; 0.04; 0.06; 0.08; 0.10].

Inductive level_result (A : Type) : Type :=
| LevelDone (a : A)
| LevelRaised (e : exn)
| LevelOutOfFuel.

Arguments LevelDone {A} a.
Arguments LevelRaised {A} e.
Arguments LevelOutOfFuel {A}.

(** Lines 124-125, 137-138 and 153-154:
    [if collisions_for_run != -1: total += collisions_for_run]. *)
Definition accumulate (total collisions_for_run : Z) : Z :=
  if (collisions_for_run =? -1)%Z then total
  else (total + collisions_for_run)%Z.

(** What a run adds to the total under [accumulate]: nothing when it
    returned -1, its result otherwise. *)
Definition counted (c : Z) : Z := if (c =? -1)%Z then 0%Z else c.

(** The [for corner in goal_corners] loop of lines 121-125, 134-138 and
    151-154: one mission per corner, the results accumulated. *)
Fixpoint for_corners (env : Env) (fuel : nat) (corners : list string)
    (total : Z) : M (level_result Z) :=
  match corners with
  | [] => ret (LevelDone total)
  | corner :: rest =>
      collisions_for_run <- run_autonomous_mission env fuel corner ;;
      match collisions_for_run with
      | Returned c => for_corners env fuel rest (accumulate total c)
      | Raised e => ret (LevelRaised e)
      | OutOfFuel => ret LevelOutOfFuel
      end
  end.

(** [total / len(goal_corners)], a true division. *)
Definition average_of (total : Z) : Q :=
  inject_Z total / inject_Z (Z.of_nat (length goal_corners)).

(** Lines 116-127 and 129-140, which differ in the obstacle setting only.
    The value is the average the function prints. *)
Definition run_level (env : Env) (fuel : nat) (enabled : bool) (speed : Q)
    (lw : LevelWorld) : level_result Q * LevelWorld :=
  let lw1 := set_obstacle_motion env enabled speed lw in
  let (r, w') := for_corners env fuel goal_corners 0 (sim lw1) in
  (match r with
   | LevelDone total => LevelDone (average_of total)
   | LevelRaised e => LevelRaised e
   | LevelOutOfFuel => LevelOutOfFuel
   end,
   mkLevel w' (motion_log lw1)).

Definition run_level_1 (env : Env) (fuel : nat) :=
  run_level env fuel false default_obstacle_speed.

Definition run_level_2 (env : Env) (fuel : nat) :=
  run_level env fuel true 0.05.

(** Lines 147-157, the loop of [run_level_3] over the obstacle speeds; the
    value is the list [average_collisions_per_speed] that line 160 hands
    to the plot.  The plotting calls are not modelled. *)
Fixpoint for_speeds (env : Env) (fuel : nat) (speeds : list Q)
    (averages : list Q) (lw : LevelWorld)
    : level_result (list Q) * LevelWorld :=
  match speeds with
  | [] => (LevelDone averages, lw)
  | speed :: rest =>
      let lw1 := set_obstacle_motion env true speed lw in
      let (r, w') := for_corners env fuel goal_corners 0 (sim lw1) in
      match r with
      | LevelDone total =>
          for_speeds env fuel rest (averages ++ [average_of total])
            (mkLevel w' (motion_log lw1))
      | LevelRaised e => (LevelRaised e, mkLevel w' (motion_log lw1))
      | LevelOutOfFuel => (LevelOutOfFuel, mkLevel w' (motion_log lw1))
      end
  end.

Definition run_level_3 (env : Env) (fuel : nat) (lw : LevelWorld)
    : level_result (list Q) * LevelWorld :=
  for_speeds env fuel obstacle_speeds [] lw.


Definition lw0 : LevelWorld := mkLevel w0 [].

(** The counter rises by one between the two reads of every cycle. *)
Definition env_rising : Env :=
  mkEnv (fun n => counting (Z.of_nat (Nat.div2 (S n))))
        (fun _ => 150) (fun _ => 0).

(** The counter rises by one at every read. *)
Definition env_climbing : Env :=
  mkEnv (fun n => counting (Z.of_nat n)) (fun _ => 150) (fun _ => 0).

(** The counter stands at 7 and every blocking call takes 100 seconds
    more than its nominal time, so no mission gets to run a cycle. *)
Definition env_slow : Env :=
  mkEnv (fun _ => counting 7) (fun _ => 150) (fun _ => 100).

(** The simulator cannot be reached: every read fails. *)
Definition env_down : Env :=
  mkEnv (fun _ => ConnectionError) (fun _ => 150) (fun _ => 0).

(** ** Proof automation *)

(** Symbolic execution of monadic code from a world given by its fields;
    the projections are reduced along the way, which keeps the terms
    small. *)
Ltac run_cycle :=
  cbv beta iota zeta delta
    [cycle escape seek get_collision_count uniform_120_180 sleep
     move_robot_relative set_goal reset_simulation time emit block bind ret
     next_read refresh_read collision_detected
     clock reads draws calls trace current_heading last_collision_count
     fst snd].

Ltac run_mission :=
  cbv beta iota zeta delta
    [run_autonomous_mission after_setup finish
     get_collision_count sleep move_robot_relative set_goal reset_simulation
     time emit block bind ret next_read
     clock reads draws calls trace fst snd].

Ltac delays_of Hd :=
  repeat match goal with
         | |- context [delay_of ?e ?k] =>
             lazymatch goal with
             | _ : 0 <= delay_of e k |- _ => fail
             | _ => pose proof (Hd k)
             end
         end.

(** * Properties *)

(** ** Sanity checks of the embedding *)

Example pymod_385 : pymod 385 360 == 25.
Proof. vm_compute. reflexivity. Qed.

Example heading_error_ne_start : heading_error 45 0 == 45.
Proof. vm_compute. reflexivity. Qed.

Example target_ne : target_headings !! "NE" = Some 45%Z.
Proof. vm_compute. reflexivity. Qed.

(** Corner NE from heading 0: the first seek command turns by 25 and moves
    by the forward speed. *)
Example first_seek_command_ne :
  trace (snd (cycle env_idle 45 (mission_start 0) w0)) =
    [GetCollisions 0; PostMove 25 25; GetCollisions 0; Sleep 0.3].
Proof. vm_compute. reflexivity. Qed.

Example quiet_mission :
  fst (run_autonomous_mission env_idle 301 "NE" w0) = Returned 0.
Proof. vm_compute. reflexivity. Qed.

(** ** Arithmetic of [%], [np.clip] and the heading error *)






Lemma clip_cases (a : Q) :
  (a <= -25 /\ clip a (- TURN_SPEED) TURN_SPEED == -25) \/
  (-25 <= a <= 25 /\ clip a (- TURN_SPEED) TURN_SPEED == a) \/
  (25 <= a /\ clip a (- TURN_SPEED) TURN_SPEED == 25).
Proof.
  unfold clip, TURN_SPEED.
  destruct (Q.max_spec a (- 25)) as [[H1 H2]|[H1 H2]];
    destruct (Q.min_spec 25 (Qmax a (- 25))) as [[H3 H4]|[H3 H4]];
    rewrite H4; rewrite ?H2 in *; lra.
Qed.





(** ** One poll cycle *)

Lemma cycle_seek (env : Env) (target : Q) (st : LoopState) (w : World) :
  collision_detected env st w = false ->
  cycle env target st w =
  (mkLoop (add_turn (current_heading st)
             (turn_correction target (current_heading st)))
          (refresh_read env w),
   mkWorld (clock w + 0 + delay_of env (calls w)
            + 0 + delay_of env (S (calls w))
            + 0 + delay_of env (S (S (calls w)))
            + 0.3 + delay_of env (S (S (S (calls w)))))
           (S (S (reads w))) (draws w) (S (S (S (S (calls w)))))
           (trace w ++
            [GetCollisions (next_read env w);
             PostMove (turn_correction target (current_heading st))
               FORWARD_SPEED;
             GetCollisions (refresh_read env w);
             Sleep 0.3])).
Proof.
  destruct w as [c r d k tr], st as [h l]. run_cycle. intros Hno.
  rewrite Hno, <- !app_assoc. reflexivity.
Qed.

Lemma cycle_escape (env : Env) (target : Q) (st : LoopState) (w : World) :
  collision_detected env st w = true ->
  cycle env target st w =
  (mkLoop (add_turn (current_heading st) (draw_of env (draws w)))
          (refresh_read env w),
   mkWorld (clock w + 0 + delay_of env (calls w)
            + 0 + delay_of env (S (calls w))
            + 0.4 + delay_of env (S (S (calls w)))
            + 0 + delay_of env (S (S (S (calls w))))
            + 0.4 + delay_of env (S (S (S (S (calls w)))))
            + 0 + delay_of env (S (S (S (S (S (calls w))))))
            + 0.4 + delay_of env (S (S (S (S (S (S (calls w)))))))
            + 0 + delay_of env (S (S (S (S (S (S (S (calls w))))))))
            + 0.3 + delay_of env (S (S (S (S (S (S (S (S (calls w))))))))))
           (S (S (reads w))) (S (draws w))
           (S (S (S (S (S (S (S (S (S (calls w))))))))))
           (trace w ++
            [GetCollisions (next_read env w);
             PostMove 0 AVOIDANCE_BACKUP;
             Sleep 0.4;
             PostMove (draw_of env (draws w)) 0;
             Sleep 0.4;
             PostMove 0 FORWARD_SPEED;
             Sleep 0.4;
             GetCollisions (refresh_read env w);
             Sleep 0.3])).
Proof.
  destruct w as [c r d k tr], st as [h l]. run_cycle. intros Hyes.
  rewrite Hyes, <- !app_assoc. reflexivity.
Qed.

(** C1 (as amended): a cycle whose fresh read exceeds the stored count runs
    the escape sequence and no seek command: it issues exactly the three
    motion commands reverse [(0, AVOIDANCE_BACKUP)], turn [(r, 0)] and
    forward [(0, FORWARD_SPEED)] in that order, where [r] is the value drawn
    from [random.uniform(120, 180)], which lies in the closed range
    [[120, 180]], and the heading estimate becomes
    [(heading + r) % 360]. *)
Theorem collision_triggers_escape
    (env : Env) (target : Q) (st : LoopState) (w : World) :
  uniform_in_range env ->
  (last_collision_count st < next_read env w)%Z ->
  120 <= draw_of env (draws w) <= 180 /\
  trace (snd (cycle env target st w)) =
    trace w ++
    [GetCollisions (next_read env w);
     PostMove 0 AVOIDANCE_BACKUP;
     Sleep 0.4;
     PostMove (draw_of env (draws w)) 0;
     Sleep 0.4;
     PostMove 0 FORWARD_SPEED;
     Sleep 0.4;
     GetCollisions (refresh_read env w);
     Sleep 0.3] /\
  current_heading (fst (cycle env target st w)) =
    add_turn (current_heading st) (draw_of env (draws w)).
Proof.
  intros Hrange Hgt.
  assert (collision_detected env st w = true) as Hdet.
  { unfold collision_detected. now apply Z.ltb_lt. }
  rewrite (cycle_escape env target st w Hdet). cbn [fst snd trace current_heading].
  split; [apply Hrange | split; reflexivity].
Qed.

Lemma env_bump_uniform : uniform_in_range env_bump.
Proof. intros n. cbn [draw_of env_bump]. split; lra. Defined.

Lemma collision_triggers_escape_witness :
  120 <= 150 <= 180 /\
  trace (snd (cycle env_bump 45 (mkLoop 0 2) w0)) =
    [GetCollisions 3; PostMove 0 (-25); Sleep 0.4; PostMove 150 0; Sleep 0.4;
     PostMove 0 25; Sleep 0.4; GetCollisions 3; Sleep 0.3] /\
  current_heading (fst (cycle env_bump 45 (mkLoop 0 2) w0)) = add_turn 0 150.
Proof.
  apply (collision_triggers_escape env_bump 45 (mkLoop 0 2) w0).
  - exact env_bump_uniform.
  - vm_compute. reflexivity.
Defined.

(** C1 (as stated) fails at the upper end of the range: 180 is a value
    [random.uniform(120, 180)] may return, and the escape then turns by
    exactly 180, which is not in [[120, 180)]. *)
Lemma escape_turn_can_be_180 :
  uniform_in_range env_180 /\
  (last_collision_count (mkLoop 0 2) < next_read env_180 w0)%Z /\
  trace (snd (cycle env_180 45 (mkLoop 0 2) w0)) =
    [GetCollisions 3; PostMove 0 (-25); Sleep 0.4; PostMove 180 0; Sleep 0.4;
     PostMove 0 25; Sleep 0.4; GetCollisions 3; Sleep 0.3] /\
  ~ (180 < 180).
Proof.
  split; [| split; [| split]].
  - intros n. cbn [draw_of env_180]. split; lra.
  - vm_compute. reflexivity.
  - vm_compute. reflexivity.
  - lra.
Qed.

(** C2 (as amended): a cycle whose delta read fails (returns -1) runs the
    seek sequence, whatever the stored count is as long as it is at least
    -1 (a count of a non-negative counter, or -1 itself from a failed
    read); in particular it seeks when the stored count is -1 too, that is,
    after two failed reads in a row.  The count stored for the next cycle
    is whatever the refresh read returned, -1 included. *)
Theorem failed_delta_read_seeks
    (env : Env) (target : Q) (st : LoopState) (w : World) :
  next_read env w = (-1)%Z ->
  (-1 <= last_collision_count st)%Z ->
  trace (snd (cycle env target st w)) =
    trace w ++
    [GetCollisions (-1);
     PostMove (turn_correction target (current_heading st)) FORWARD_SPEED;
     GetCollisions (refresh_read env w);
     Sleep 0.3] /\
  last_collision_count (fst (cycle env target st w)) = refresh_read env w.
Proof.
  intros Hfail Hlast.
  assert (collision_detected env st w = false) as Hdet.
  { unfold collision_detected. rewrite Hfail. apply Z.ltb_ge. lia. }
  rewrite (cycle_seek env target st w Hdet). cbn [fst snd trace last_collision_count].
  rewrite Hfail. split; reflexivity.
Qed.

Lemma failed_delta_read_seeks_witness :
  trace (snd (cycle env_flaky 45 (mkLoop 0 (-1)) w0)) =
    [GetCollisions (-1); PostMove (turn_correction 45 0) 25;
     GetCollisions (-1); Sleep 0.3] /\
  last_collision_count (fst (cycle env_flaky 45 (mkLoop 0 (-1)) w0)) = (-1)%Z.
Proof.
  apply (failed_delta_read_seeks env_flaky 45 (mkLoop 0 (-1)) w0).
  - vm_compute. reflexivity.
  - vm_compute. discriminate.
Defined.

(** C2 (as stated) fails: the counter stands at 5 throughout and the
    stored count is 5; the delta read and the refresh read of one cycle
    both fail, the cycle seeks, and the next cycle, reading 5 again, runs
    the escape sequence, because the stored count is then the -1 of the
    failed refresh and not the last valid count. *)
Lemma two_failed_reads_then_escape :
  next_read env_flaky w0 = (-1)%Z /\
  refresh_read env_flaky w0 = (-1)%Z /\
  (forall n, (2 <= n)%nat -> collision_count_of (read_of env_flaky n) = 5%Z) /\
  trace (snd (cycles env_flaky 2 45 (mkLoop 0 5) w0)) =
    [GetCollisions (-1); PostMove 25 25; GetCollisions (-1); Sleep 0.3;
     GetCollisions 5; PostMove 0 (-25); Sleep 0.4; PostMove 150 0; Sleep 0.4;
     PostMove 0 25; Sleep 0.4; GetCollisions 5; Sleep 0.3].
Proof.
  split; [| split; [| split]].
  - vm_compute. reflexivity.
  - vm_compute. reflexivity.
  - intros [|[|n]] Hn; try lia. vm_compute. reflexivity.
  - vm_compute. reflexivity.
Qed.

(** C8: the count stored at the end of a cycle is the raw result of the
    refresh read, and a cycle that starts with -1 as its stored count and
    reads any non-negative count runs the escape sequence. *)
Theorem sentinel_baseline_triggers_escape
    (env : Env) (target : Q) (st : LoopState) (w : World) :
  last_collision_count st = (-1)%Z ->
  (0 <= next_read env w)%Z ->
  trace (snd (cycle env target st w)) =
    trace w ++
    [GetCollisions (next_read env w);
     PostMove 0 AVOIDANCE_BACKUP;
     Sleep 0.4;
     PostMove (draw_of env (draws w)) 0;
     Sleep 0.4;
     PostMove 0 FORWARD_SPEED;
     Sleep 0.4;
     GetCollisions (refresh_read env w);
     Sleep 0.3] /\
  last_collision_count (fst (cycle env target st w)) = refresh_read env w.
Proof.
  intros Hlast Hread.
  assert (collision_detected env st w = true) as Hdet.
  { unfold collision_detected. rewrite Hlast. apply Z.ltb_lt. lia. }
  rewrite (cycle_escape env target st w Hdet). cbn [fst snd trace last_collision_count].
  split; reflexivity.
Qed.

(** The same at the start of a mission: the read before the loop fails,
    the first cycle reads 0 and escapes. *)
Example failed_initial_read_then_escape :
  firstn 11 (trace (snd (run_autonomous_mission env_first_fails 301 "NE" w0))) =
    [PostReset; PostGoal "NE"; Sleep 1; GetCollisions (-1);
     GetCollisions 0; PostMove 0 (-25); Sleep 0.4; PostMove 150 0; Sleep 0.4;
     PostMove 0 25; Sleep 0.4].
Proof. vm_compute. reflexivity. Qed.

Lemma sentinel_baseline_triggers_escape_witness :
  trace (snd (cycle env_idle 45 (mkLoop 0 (-1)) w0)) =
    [GetCollisions 0; PostMove 0 (-25); Sleep 0.4; PostMove 150 0; Sleep 0.4;
     PostMove 0 25; Sleep 0.4; GetCollisions 0; Sleep 0.3] /\
  last_collision_count (fst (cycle env_idle 45 (mkLoop 0 (-1)) w0)) = 0%Z.
Proof.
  apply (sentinel_baseline_triggers_escape env_idle 45 (mkLoop 0 (-1)) w0).
  - reflexivity.
  - vm_compute. discriminate.
Defined.





(** ** The heading estimate *)


Lemma cycles_S (env : Env) (n : nat) (target : Q) (st : LoopState) (w : World) :
  cycles env (S n) target st w =
  cycles env n target (fst (cycle env target st w)) (snd (cycle env target st w)).
Proof.
  cbn [cycles]. unfold bind. destruct (cycle env target st w). reflexivity.
Qed.



Lemma while_loop_S (env : Env) (n : nat) (target start : Q)
    (st : LoopState) (w : World) :
  while_loop env (S n) target start st w =
  if guard start (clock w)
  then while_loop env n target start
         (fst (cycle env target st w)) (snd (cycle env target st w))
  else (Some st, w).
Proof.
  cbn [while_loop]. unfold bind, time, ret.
  destruct (guard start (clock w)); [| reflexivity].
  destruct (cycle env target st w). reflexivity.
Qed.

(** The loop leaves with the state some number of cycles produces. *)
Lemma while_loop_cycles (env : Env) (target start : Q) (fuel : nat) :
  forall (st st' : LoopState) (w w' : World),
    while_loop env fuel target start st w = (Some st', w') ->
    exists n, cycles env n target st w = (st', w').
Proof.
  induction fuel as [|fuel IH]; intros st st' w w' Hloop.
  - discriminate.
  - rewrite while_loop_S in Hloop.
    destruct (guard start (clock w)).
    + destruct (IH _ _ _ _ Hloop) as [n Hn].
      exists (S n). now rewrite cycles_S.
    + injection Hloop as <- <-. now exists O.
Qed.


(** ** The mission as a whole *)

Lemma after_setup_trace (env : Env) (goal_corner : string) (w : World) :
  trace (after_setup env goal_corner w) =
  trace w ++ [PostReset; PostGoal goal_corner; Sleep 1].
Proof. destruct w. run_mission. rewrite <- !app_assoc. reflexivity. Qed.

Lemma finish_spec (env : Env) (w : World) :
  fst (finish env w) = Returned (next_read env w) /\
  reads (snd (finish env w)) = S (reads w) /\
  trace (snd (finish env w)) =
    trace w ++ [PostMove 0 0; GetCollisions (next_read env w)].
Proof.
  destruct w. run_mission. rewrite <- !app_assoc. repeat split; reflexivity.
Qed.

Lemma run_mission_invalid (env : Env) (fuel : nat) (goal_corner : string) (w : World) :
  target_headings !! goal_corner = None ->
  run_autonomous_mission env fuel goal_corner w =
  (Raised (KeyError goal_corner), after_setup env goal_corner w).
Proof.
  intros Hnone. destruct w. run_mission. rewrite Hnone. reflexivity.
Qed.

Lemma run_mission_valid (env : Env) (fuel : nat) (goal_corner : string)
    (target : Z) (w : World) :
  target_headings !! goal_corner = Some target ->
  run_autonomous_mission env fuel goal_corner w =
  match while_loop env fuel (inject_Z target)
          (clock (after_setup env goal_corner w))
          (mission_start (next_read env (after_setup env goal_corner w)))
          (snd (get_collision_count env (after_setup env goal_corner w))) with
  | (Some _, w_exit) => finish env w_exit
  | (None, w_exit) => (OutOfFuel, w_exit)
  end.
Proof.
  intros Hsome. destruct w. run_mission. rewrite Hsome.
  match goal with
  | |- context [while_loop ?e ?f ?t ?s ?st ?w] =>
      destruct (while_loop e f t s st w) as [[st'|] w_exit]
  end; reflexivity.
Qed.

Lemma invalid_corner_lookup (goal_corner : string) :
  goal_corner <> "NE" -> goal_corner <> "NW" ->
  goal_corner <> "SE" -> goal_corner <> "SW" ->
  target_headings !! goal_corner = None.
Proof.
  intros Hne Hnw Hse Hsw. unfold target_headings.
  rewrite !lookup_insert_ne by congruence. apply lookup_empty.
Qed.

(** C7 (as amended): for a goal corner that is none of NE, NW, SE, SW the
    mission raises [KeyError] at the heading lookup of line 68, after the
    reset request, the goal-placement request carrying the invalid label
    and the one-second sleep have been issued, and before any collision
    read or motion command. *)
Theorem invalid_corner_raises_after_setup
    (env : Env) (fuel : nat) (goal_corner : string) (w : World) :
  goal_corner <> "NE" -> goal_corner <> "NW" ->
  goal_corner <> "SE" -> goal_corner <> "SW" ->
  fst (run_autonomous_mission env fuel goal_corner w)
    = Raised (KeyError goal_corner) /\
  trace (snd (run_autonomous_mission env fuel goal_corner w))
    = trace w ++ [PostReset; PostGoal goal_corner; Sleep 1].
Proof.
  intros Hne Hnw Hse Hsw.
  rewrite (run_mission_invalid env fuel goal_corner w)
    by now apply invalid_corner_lookup.
  cbn [fst snd]. split; [reflexivity | apply after_setup_trace].
Qed.

Lemma invalid_corner_raises_after_setup_witness :
  fst (run_autonomous_mission env_idle 301 "XX" w0) = Raised (KeyError "XX") /\
  trace (snd (run_autonomous_mission env_idle 301 "XX" w0))
    = [PostReset; PostGoal "XX"; Sleep 1].
Proof.
  apply (invalid_corner_raises_after_setup env_idle 301 "XX" w0);
    vm_compute; discriminate.
Defined.

(** C7 (as stated) fails: with the label "XX" the mission has already sent
    the reset and the goal placement for "XX" to the simulator when it
    raises. *)
Lemma invalid_corner_reaches_simulator :
  "XX" <> "NE" /\ "XX" <> "NW" /\ "XX" <> "SE" /\ "XX" <> "SW" /\
  run_autonomous_mission env_idle 301 "XX" w0 =
    (Raised (KeyError "XX"),
     mkWorld 1 0 0 3 [PostReset; PostGoal "XX"; Sleep 1]) /\
  In PostReset (trace (snd (run_autonomous_mission env_idle 301 "XX" w0))) /\
  In (PostGoal "XX") (trace (snd (run_autonomous_mission env_idle 301 "XX" w0))).
Proof.
  split; [discriminate | split; [discriminate | split; [discriminate |]]].
  split; [discriminate | split; [| split]].
  - vm_compute. reflexivity.
  - vm_compute. left. reflexivity.
  - vm_compute. right. left. reflexivity.
Qed.

(** ** The loop and its exit *)

Lemma guard_false (start now : Q) :
  guard start now = false <-> run_duration_seconds <= now - start.
Proof.
  unfold guard. rewrite negb_false_iff. apply Qle_bool_iff.
Qed.

Lemma guard_true (start now : Q) :
  guard start now = true <-> now - start < run_duration_seconds.
Proof.
  unfold guard. rewrite negb_true_iff. split.
  - intros Hb. apply Qnot_le_lt. intros Hle.
    apply Qle_bool_iff in Hle. congruence.
  - intros Hlt. destruct (Qle_bool run_duration_seconds (now - start)) eqn:Hb;
      [| reflexivity].
    apply Qle_bool_iff in Hb. lra.
Qed.

(** A cycle takes at least the poll period. *)
Lemma cycle_clock (env : Env) (target : Q) (st : LoopState) (w : World) :
  delays_nonneg env ->
  clock w + 0.3 <= clock (snd (cycle env target st w)).
Proof.
  intros Hd. destruct (collision_detected env st w) eqn:Hdet.
  - rewrite (cycle_escape env target st w Hdet). cbn [snd clock].
    delays_of Hd. lra.
  - rewrite (cycle_seek env target st w Hdet). cbn [snd clock].
    delays_of Hd. lra.
Qed.

Lemma get_collision_count_clock (env : Env) (w : World) :
  delays_nonneg env ->
  clock w <= clock (snd (get_collision_count env w)).
Proof.
  intros Hd. destruct w as [c r d k tr]. run_mission.
  pose proof (Hd k). lra.
Qed.

Lemma inject_nat_S (n : nat) :
  inject_Z (Z.of_nat (S n)) == inject_Z (Z.of_nat n) + 1.
Proof.
  rewrite Nat2Z.inj_succ. unfold Z.succ. rewrite inject_Z_plus. reflexivity.
Qed.

(** With [n] poll periods left on the clock, [S n] units of fuel reach the
    exit of the loop, and the exit is taken with the duration elapsed. *)
Lemma while_loop_exits (env : Env) (target start : Q) :
  delays_nonneg env ->
  forall (n : nat) (st : LoopState) (w : World),
    run_duration_seconds - (clock w - start) <= 0.3 * inject_Z (Z.of_nat n) ->
    exists st' w',
      while_loop env (S n) target start st w = (Some st', w') /\
      run_duration_seconds <= clock w' - start.
Proof.
  intros Hd n. induction n as [|n IH]; intros st w Hleft;
    rewrite while_loop_S; destruct (guard start (clock w)) eqn:Hg.
  - apply guard_true in Hg. change (inject_Z (Z.of_nat 0)) with 0 in Hleft. lra.
  - apply guard_false in Hg. now exists st, w.
  - apply IH.
    pose proof (cycle_clock env target st w Hd) as Hstep.
    rewrite inject_nat_S in Hleft. lra.
  - apply guard_false in Hg. now exists st, w.
Qed.

(** C6: whatever the loop state, a guard check made once the run duration
    has elapsed leaves the loop without issuing anything; and a mission to
    a valid corner does reach such a check (never later than the 301st),
    then issues exactly the stop command [(0, 0)], reads the collision
    count once more and returns that value. *)
Theorem mission_stops_at_deadline
    (env : Env) (goal_corner : string) (target : Z) (fuel : nat) (w : World) :
  delays_nonneg env ->
  target_headings !! goal_corner = Some target ->
  (301 <= fuel)%nat ->
  (forall (n : nat) (st : LoopState) (w' : World) (start : Q),
      run_duration_seconds <= clock w' - start ->
      while_loop env (S n) (inject_Z target) start st w' = (Some st, w')) /\
  exists (st : LoopState) (w_exit : World),
    while_loop env fuel (inject_Z target)
      (clock (after_setup env goal_corner w))
      (mission_start (next_read env (after_setup env goal_corner w)))
      (snd (get_collision_count env (after_setup env goal_corner w)))
      = (Some st, w_exit) /\
    run_duration_seconds
      <= clock w_exit - clock (after_setup env goal_corner w) /\
    fst (run_autonomous_mission env fuel goal_corner w)
      = Returned (next_read env w_exit) /\
    trace (snd (run_autonomous_mission env fuel goal_corner w))
      = trace w_exit ++ [PostMove 0 0; GetCollisions (next_read env w_exit)].
Proof.
  intros Hd Hsome Hfuel. split.
  - intros n st w' start Hdue. rewrite while_loop_S.
    apply guard_false in Hdue. rewrite Hdue. reflexivity.
  - destruct fuel as [|n]; [lia |].
    set (w1 := after_setup env goal_corner w).
    destruct (while_loop_exits env (inject_Z target) (clock w1) Hd n
                (mission_start (next_read env w1))
                (snd (get_collision_count env w1))) as (st & w_exit & Hloop & Hdue).
    { pose proof (get_collision_count_clock env w1 Hd) as Hclock.
      assert (300 <= inject_Z (Z.of_nat n)) as Hn.
      { change 300 with (inject_Z 300). rewrite <- Zle_Qle. lia. }
      unfold run_duration_seconds. lra. }
    exists st, w_exit. split; [exact Hloop | split; [exact Hdue |]].
    rewrite (run_mission_valid env (S n) goal_corner target w Hsome).
    fold w1. rewrite Hloop.
    destruct (finish_spec env w_exit) as (Hres & _ & Htrace).
    split; assumption.
Qed.

Lemma env_idle_delays : delays_nonneg env_idle.
Proof. intros n. cbn [delay_of env_idle]. lra. Defined.

Lemma mission_stops_at_deadline_witness :
  (forall (n : nat) (st : LoopState) (w' : World) (start : Q),
      run_duration_seconds <= clock w' - start ->
      while_loop env_idle (S n) (inject_Z 45) start st w' = (Some st, w')) /\
  exists (st : LoopState) (w_exit : World),
    while_loop env_idle 301 (inject_Z 45)
      (clock (after_setup env_idle "NE" w0))
      (mission_start (next_read env_idle (after_setup env_idle "NE" w0)))
      (snd (get_collision_count env_idle (after_setup env_idle "NE" w0)))
      = (Some st, w_exit) /\
    run_duration_seconds
      <= clock w_exit - clock (after_setup env_idle "NE" w0) /\
    fst (run_autonomous_mission env_idle 301 "NE" w0)
      = Returned (next_read env_idle w_exit) /\
    trace (snd (run_autonomous_mission env_idle 301 "NE" w0))
      = trace w_exit ++ [PostMove 0 0; GetCollisions (next_read env_idle w_exit)].
Proof.
  apply (mission_stops_at_deadline env_idle "NE" 45 301 w0).
  - exact env_idle_delays.
  - vm_compute. reflexivity.
  - lia.
Defined.

(** C9: whenever the mission returns a value, that value is the result of
    the one collision read made after the stop command, which is the last
    answer the mission consumes: it is -1 when that answer is a failure and
    the count of that answer otherwise, whatever the earlier reads were. *)
Theorem mission_result_is_final_read
    (env : Env) (fuel : nat) (goal_corner : string) (w : World) (v : Z) :
  fst (run_autonomous_mission env fuel goal_corner w) = Returned v ->
  exists (n : nat) (before : list event),
    reads (snd (run_autonomous_mission env fuel goal_corner w)) = S n /\
    v = collision_count_of (read_of env n) /\
    trace (snd (run_autonomous_mission env fuel goal_corner w))
      = before ++ [PostMove 0 0; GetCollisions v].
Proof.
  intros Hret.
  destruct (target_headings !! goal_corner) as [target|] eqn:Hlook.
  - rewrite (run_mission_valid env fuel goal_corner target w Hlook) in *.
    match type of Hret with
    | context [while_loop ?e ?f ?t ?s ?st ?w'] =>
        destruct (while_loop e f t s st w') as [[st'|] w_exit]
    end.
    + destruct (finish_spec env w_exit) as (Hres & Hreads & Htrace).
      rewrite Hres in Hret. injection Hret as <-.
      exists (reads w_exit), (trace w_exit).
      split; [exact Hreads | split; [reflexivity | exact Htrace]].
    + discriminate.
  - rewrite (run_mission_invalid env fuel goal_corner w Hlook) in Hret.
    discriminate.
Qed.

Example last_read_failure_returns_sentinel :
  fst (run_autonomous_mission env_last_fails 301 "NE" w0) = Returned (-1).
Proof. vm_compute. reflexivity. Qed.

Lemma mission_result_is_final_read_witness :
  exists (n : nat) (before : list event),
    reads (snd (run_autonomous_mission env_last_fails 301 "NE" w0)) = S n /\
    (-1)%Z = collision_count_of (read_of env_last_fails n) /\
    trace (snd (run_autonomous_mission env_last_fails 301 "NE" w0))
      = before ++ [PostMove 0 0; GetCollisions (-1)].
Proof.
  apply (mission_result_is_final_read env_last_fails 301 "NE" w0 (-1)).
  vm_compute. reflexivity.
Defined.

(** ** Runs of seek cycles *)

Lemma cycles_snoc (env : Env) (target : Q) (n : nat) :
  forall (st : LoopState) (w : World),
    cycles env (S n) target st w =
    cycle env target (fst (cycles env n target st w))
                     (snd (cycles env n target st w)).
Proof.
  induction n as [|n IH]; intros st w.
  - rewrite cycles_S. cbn [cycles]. unfold ret. cbn [fst snd].
    destruct (cycle env target st w). reflexivity.
  - rewrite cycles_S, IH, <- cycles_S. reflexivity.
Qed.








(** Every heading of the corner table is a heading in [[0, 360)]. *)
Lemma target_headings_range (goal_corner : string) (target : Z) :
  target_headings !! goal_corner = Some target ->
  0 <= inject_Z target < 360.
Proof.
  unfold target_headings. rewrite !lookup_insert, lookup_empty.
  repeat case_decide; intros Heq; simplify_eq; split; vm_compute;
    first [discriminate | reflexivity].
Qed.



(** * Further properties of the controller and of the level functions *)

Example level_1_slow :
  run_level_1 env_slow 301 lw0 =
    (LevelDone (28 # 4),
     mkLevel (mkWorld 2504 8 0 25
                [PostReset; PostGoal "NE"; Sleep 1; GetCollisions 7;
                 PostMove 0 0; GetCollisions 7;
                 PostReset; PostGoal "NW"; Sleep 1; GetCollisions 7;
                 PostMove 0 0; GetCollisions 7;
                 PostReset; PostGoal "SE"; Sleep 1; GetCollisions 7;
                 PostMove 0 0; GetCollisions 7;
                 PostReset; PostGoal "SW"; Sleep 1; GetCollisions 7;
                 PostMove 0 0; GetCollisions 7])
             [(0%nat, false, 0.05)]).
Proof. vm_compute. reflexivity. Qed.

Example level_3_slow :
  fst (run_level_3 env_slow 301 lw0) = LevelDone [28 # 4; 28 # 4; 28 # 4; 28 # 4; 28 # 4] /\
  motion_log (snd (run_level_3 env_slow 301 lw0)) =
    [(0%nat, true, 0.02); (24%nat, true, 0.04); (48%nat, true, 0.06);
     (72%nat, true, 0.08); (96%nat, true, 0.10)].
Proof. split; vm_compute; reflexivity. Qed.

(** ** Turns compose modulo 360 *)






Lemma turn_correction_facts (target heading : Q) :
  - TURN_SPEED <= turn_correction target heading <= TURN_SPEED /\
  0 <= turn_correction target heading * heading_error target heading /\
  (Qabs (heading_error target heading) <= TURN_SPEED ->
   turn_correction target heading == heading_error target heading).
Proof.
  unfold turn_correction.
  set (e := heading_error target heading).
  destruct (clip_cases e) as [[Hc1 Hc2]|[[Hc1 Hc2]|[Hc1 Hc2]]];
    set (tc := clip e (- TURN_SPEED) TURN_SPEED) in *; unfold TURN_SPEED;
    (split; [split; lra | split]).
  - rewrite Hc2. nra.
  - intros Habs. apply Qabs_Qle_condition in Habs. lra.
  - rewrite Hc2. nra.
  - intros _. exact Hc2.
  - rewrite Hc2. nra.
  - intros Habs. apply Qabs_Qle_condition in Habs. lra.
Qed.

(** X4: the seek turn never exceeds the turn limit, has the sign of the error,
    and is the whole error when that is within the limit. *)
Theorem turn_correction_bounds (target heading : Q) :
  - TURN_SPEED <= turn_correction target heading <= TURN_SPEED /\
  0 <= turn_correction target heading * heading_error target heading /\
  (Qabs (heading_error target heading) <= TURN_SPEED ->
   turn_correction target heading == heading_error target heading).
Proof. exact (turn_correction_facts target heading). Qed.

Lemma turn_correction_bounds_witness :
  turn_correction 45 30 == heading_error 45 30.
Proof.
  apply (proj2 (proj2 (turn_correction_bounds 45 30))).
  vm_compute. discriminate.
Defined.



(** ** What the cycles of a mission consume and issue *)

Lemma goals_of_app (a b : list event) : goals_of (a ++ b) = goals_of a ++ goals_of b.
Proof. apply flat_map_app. Qed.

Lemma moves_of_app (a b : list event) : moves_of (a ++ b) = moves_of a ++ moves_of b.
Proof. apply flat_map_app. Qed.

Lemma resets_of_app (a b : list event) :
  resets_of (a ++ b) = (resets_of a + resets_of b)%nat.
Proof. unfold resets_of. rewrite flat_map_app. apply length_app. Qed.


Lemma count_counting (c : Z) : collision_count_of (counting c) = c.
Proof.
  unfold counting, collision_count_of. now rewrite lookup_singleton_eq.
Qed.

Lemma cycle_summary (env : Env) (target : Q) (st : LoopState) (w : World) :
  trace (snd (cycle env target st w)) = trace w ++ cycle_events env target st w /\
  reads (snd (cycle env target st w)) = S (S (reads w)) /\
  draws (snd (cycle env target st w)) =
    ((if collision_detected env st w then 1 else 0) + draws w)%nat /\
  last_collision_count (fst (cycle env target st w)) = refresh_read env w /\
  current_heading (fst (cycle env target st w)) =
    add_turn (current_heading st)
      (if collision_detected env st w then draw_of env (draws w)
       else turn_correction target (current_heading st)).
Proof.
  unfold cycle_events. destruct (collision_detected env st w) eqn:Hdet.
  - rewrite (cycle_escape env target st w Hdet). repeat split.
  - rewrite (cycle_seek env target st w Hdet). repeat split.
Qed.

Lemma cycle_events_views (env : Env) (target : Q) (st : LoopState) (w : World) :
  goals_of (cycle_events env target st w) = [] /\
  resets_of (cycle_events env target st w) = O /\
  length (moves_of (cycle_events env target st w)) =
    (if collision_detected env st w then 3 else 1)%nat /\
  turns_of (cycle_events env target st w) ==
    (if collision_detected env st w then draw_of env (draws w)
     else turn_correction target (current_heading st)) /\
  (uniform_in_range env ->
   Forall cycle_move (moves_of (cycle_events env target st w))).
Proof.
  unfold cycle_events. destruct (collision_detected env st w);
    (split; [reflexivity | split; [reflexivity | split; [reflexivity | split]]]).
  - unfold turns_of. cbn [fold_right]. lra.
  - intros Hu. cbn [moves_of flat_map app].
    constructor; [| constructor; [| constructor; [| constructor]]].
    + left. split; reflexivity.
    + right. left. split; [apply Hu | reflexivity].
    + right. right. left. split; reflexivity.
  - unfold turns_of. cbn [fold_right]. lra.
  - intros _. cbn [moves_of flat_map app].
    constructor; [| constructor].
    right. right. right. split; [| reflexivity].
    apply turn_correction_facts.
Qed.

Lemma cycles_O (env : Env) (target : Q) (st : LoopState) (w : World) :
  cycles env 0 target st w = (st, w).
Proof. reflexivity. Qed.

Lemma cycles_counts
    (env : Env) (target : Q) (n : nat) (st : LoopState) (w : World) :
  reads (snd (cycles env n target st w)) = (reads w + 2 * n)%nat /\
  draws (snd (cycles env n target st w))
    = (draws w + escapes_in env n target st w)%nat /\
  length (moves_of (trace (snd (cycles env n target st w))))
    = (length (moves_of (trace w)) + n + 2 * escapes_in env n target st w)%nat /\
  goals_of (trace (snd (cycles env n target st w))) = goals_of (trace w) /\
  resets_of (trace (snd (cycles env n target st w))) = resets_of (trace w).
Proof.
  revert st w. induction n as [|n IH]; intros st w.
  - rewrite cycles_O. cbn [snd escapes_in]. repeat split; lia.
  - rewrite cycles_S. cbn [escapes_in].
    destruct (IH (fst (cycle env target st w)) (snd (cycle env target st w)))
      as (Hr & Hd & Hm & Hg & Hz).
    destruct (cycle_summary env target st w) as (Ht & Hr1 & Hd1 & _ & _).
    destruct (cycle_events_views env target st w) as (Hg1 & Hz1 & Hm1 & _ & _).
    rewrite Hr, Hd, Hm, Hg, Hz, Hr1, Hd1, Ht.
    rewrite goals_of_app, resets_of_app, moves_of_app, length_app, Hg1, Hz1, Hm1.
    rewrite app_nil_r.
    destruct (collision_detected env st w); repeat split; lia.
Qed.

(** X6: every poll cycle asks for the collision count exactly twice, and a
    random turn is drawn, and two more commands are issued, exactly in the
    cycles that escape; no cycle resets the simulator or places a goal. *)
Theorem cycles_accounting
    (env : Env) (target : Q) (n : nat) (st : LoopState) (w : World) :
  reads (snd (cycles env n target st w)) = (reads w + 2 * n)%nat /\
  draws (snd (cycles env n target st w))
    = (draws w + escapes_in env n target st w)%nat /\
  length (moves_of (trace (snd (cycles env n target st w))))
    = (length (moves_of (trace w)) + n + 2 * escapes_in env n target st w)%nat /\
  goals_of (trace (snd (cycles env n target st w))) = goals_of (trace w) /\
  resets_of (trace (snd (cycles env n target st w))) = resets_of (trace w).
Proof. exact (cycles_counts env target n st w). Qed.

(** X7: from the second cycle on, whether a cycle escapes is decided by two
    consecutive answers of the simulator alone: the refresh read of the
    cycle before and the fresh read of the cycle itself. *)
Theorem escape_decided_by_consecutive_reads
    (env : Env) (target : Q) (n : nat) (st : LoopState) (w : World) :
  collision_detected env (fst (cycles env (S n) target st w))
                         (snd (cycles env (S n) target st w))
  = (count_at env (reads w + 2 * n + 1) <? count_at env (reads w + 2 * n + 2))%Z.
Proof.
  unfold collision_detected, next_read.
  destruct (cycles_counts env target (S n) st w) as (Hr & _).
  rewrite Hr, cycles_snoc.
  destruct (cycle_summary env target (fst (cycles env n target st w))
              (snd (cycles env n target st w))) as (_ & _ & _ & Hl & _).
  rewrite Hl. unfold refresh_read.
  destruct (cycles_counts env target n st w) as (Hrn & _).
  rewrite Hrn. unfold count_at.
  replace (S (reads w + 2 * n))%nat with (reads w + 2 * n + 1)%nat by lia.
  replace (reads w + 2 * S n)%nat with (reads w + 2 * n + 2)%nat by lia.
  reflexivity.
Qed.

Lemma seeking_when_no_rise
    (env : Env) (target : Q) (n : nat) (st : LoopState) (w : World) :
  (count_at env (reads w) <= last_collision_count st)%Z ->
  (forall k, (S k < n)%nat ->
     (count_at env (reads w + 2 * k + 2) <= count_at env (reads w + 2 * k + 1))%Z) ->
  seeking_for env n target st w = true /\
  escapes_in env n target st w = O.
Proof.
  revert st w. induction n as [|n IH]; intros st w Hfirst Hlater.
  - split; reflexivity.
  - cbn [seeking_for escapes_in].
    assert (collision_detected env st w = false) as Hdet.
    { unfold collision_detected, next_read. apply Z.ltb_ge. exact Hfirst. }
    rewrite Hdet.
    destruct (cycle_summary env target st w) as (_ & Hr1 & _ & Hl1 & _).
    destruct n as [|n]; [split; reflexivity |].
    destruct (IH (fst (cycle env target st w)) (snd (cycle env target st w)))
      as [Hs He].
    + rewrite Hr1, Hl1. unfold refresh_read.
      specialize (Hlater O ltac:(lia)).
      replace (reads w + 2 * 0 + 2)%nat with (S (S (reads w))) in Hlater by lia.
      replace (reads w + 2 * 0 + 1)%nat with (S (reads w)) in Hlater by lia.
      exact Hlater.
    + intros k Hk. rewrite Hr1.
      specialize (Hlater (S k) ltac:(lia)).
      replace (S (S (reads w)) + 2 * k + 2)%nat
        with (reads w + 2 * S k + 2)%nat by lia.
      replace (S (S (reads w)) + 2 * k + 1)%nat
        with (reads w + 2 * S k + 1)%nat by lia.
      exact Hlater.
    + rewrite Hs, He. split; reflexivity.
Qed.

(** X8: a rise of the counter that shows first in a refresh read is never
    acted on.  When the first fresh read does not exceed the stored count
    and every later fresh read does not exceed the refresh read before it,
    all [n] cycles seek, however much the counter rose between the fresh
    read and the refresh read of each cycle. *)
Theorem rises_between_reads_go_unnoticed
    (env : Env) (target : Q) (n : nat) (st : LoopState) (w : World) :
  (count_at env (reads w) <= last_collision_count st)%Z ->
  (forall k, (S k < n)%nat ->
     (count_at env (reads w + 2 * k + 2) <= count_at env (reads w + 2 * k + 1))%Z) ->
  seeking_for env n target st w = true /\
  escapes_in env n target st w = O.
Proof. exact (seeking_when_no_rise env target n st w). Qed.

Lemma rises_between_reads_go_unnoticed_witness :
  seeking_for env_rising 3 45 (mkLoop 0 0) w0 = true /\
  escapes_in env_rising 3 45 (mkLoop 0 0) w0 = O.
Proof.
  apply (rises_between_reads_go_unnoticed env_rising 45 3 (mkLoop 0 0) w0).
  - vm_compute. discriminate.
  - intros [|[|k]] Hk; [vm_compute; discriminate | vm_compute; discriminate | lia].
Defined.

(** X9: when no read fails and the counter never goes down, the stored
    count rises by at least one with every escape: the controller escapes
    at most as often as the counter rose. *)
Theorem escapes_bounded_by_counter_rise
    (env : Env) (target : Q) (n : nat) (st : LoopState) (w : World) :
  (forall i, (count_at env i <= count_at env (S i))%Z) ->
  (last_collision_count st <= count_at env (reads w))%Z ->
  (last_collision_count st + Z.of_nat (escapes_in env n target st w)
   <= last_collision_count (fst (cycles env n target st w)))%Z.
Proof.
  intros Hmono. revert st w. induction n as [|n IH]; intros st w Hlast.
  - rewrite cycles_O. cbn [fst escapes_in]. lia.
  - rewrite cycles_S. cbn [escapes_in].
    destruct (cycle_summary env target st w) as (_ & Hr1 & _ & Hl1 & _).
    specialize (IH (fst (cycle env target st w)) (snd (cycle env target st w))).
    rewrite Hr1, Hl1 in IH. unfold refresh_read in *. fold (count_at env (S (reads w))) in *.
    specialize (IH (Hmono (S (reads w)))).
    pose proof (Hmono (reads w)) as Hstep.
    unfold collision_detected, next_read. fold (count_at env (reads w)).
    destruct (Z.ltb_spec (last_collision_count st) (count_at env (reads w))); lia.
Qed.

Lemma env_climbing_monotone :
  forall i, (count_at env_climbing i <= count_at env_climbing (S i))%Z.
Proof.
  intros i. unfold count_at. cbn [read_of env_climbing].
  rewrite !count_counting. lia.
Defined.

Lemma escapes_bounded_by_counter_rise_witness :
  (last_collision_count (mkLoop 0 0)
   + Z.of_nat (escapes_in env_climbing 3 45 (mkLoop 0 0) w0)
   <= last_collision_count (fst (cycles env_climbing 3 45 (mkLoop 0 0) w0)))%Z.
Proof.
  apply (escapes_bounded_by_counter_rise env_climbing 45 3 (mkLoop 0 0) w0).
  - exact env_climbing_monotone.
  - vm_compute. discriminate.
Defined.



Lemma cycles_extend_trace (env : Env) (target : Q) (n : nat) :
  forall (st : LoopState) (w : World),
  exists evs,
    trace (snd (cycles env n target st w)) = trace w ++ evs /\
    goals_of evs = [] /\ resets_of evs = O /\
    (uniform_in_range env -> Forall cycle_move (moves_of evs)).
Proof.
  induction n as [|n IH]; intros st w.
  - exists []. rewrite cycles_O, app_nil_r. repeat split. intros _. constructor.
  - rewrite cycles_S.
    destruct (IH (fst (cycle env target st w)) (snd (cycle env target st w)))
      as (evs & Ht & Hg & Hz & Hm).
    destruct (cycle_summary env target st w) as (Ht1 & _).
    destruct (cycle_events_views env target st w) as (Hg1 & Hz1 & _ & _ & Hm1).
    exists (cycle_events env target st w ++ evs).
    rewrite Ht, Ht1, <- app_assoc, goals_of_app, resets_of_app, moves_of_app,
      Hg, Hz, Hg1, Hz1.
    repeat split. intros Hu. apply Forall_app. split; auto.
Qed.

(** X11: every motion command a run of cycles issues is one of four kinds:
    the reverse [(0, -25)], a pure turn by 120 to 180 degrees, the
    forward [(0, 25)], or a seek command that moves by 25 and turns by at
    most 25 degrees either way. *)
Theorem cycle_commands_in_envelope
    (env : Env) (target : Q) (n : nat) (st : LoopState) (w : World) :
  uniform_in_range env ->
  exists evs,
    trace (snd (cycles env n target st w)) = trace w ++ evs /\
    Forall cycle_move (moves_of evs).
Proof.
  intros Hu.
  destruct (cycles_extend_trace env target n st w) as (evs & Ht & _ & _ & Hm).
  exists evs. split; [exact Ht | exact (Hm Hu)].
Qed.

Lemma cycle_commands_in_envelope_witness :
  exists evs,
    trace (snd (cycles env_bump 3 45 (mkLoop 0 2) w0)) = trace w0 ++ evs /\
    Forall cycle_move (moves_of evs).
Proof.
  apply (cycle_commands_in_envelope env_bump 45 3 (mkLoop 0 2) w0).
  exact env_bump_uniform.
Defined.

(** ** A mission from its first call to its last *)

Lemma get_collision_count_summary (env : Env) (w : World) :
  fst (get_collision_count env w) = next_read env w /\
  trace (snd (get_collision_count env w))
    = trace w ++ [GetCollisions (next_read env w)] /\
  reads (snd (get_collision_count env w)) = S (reads w) /\
  draws (snd (get_collision_count env w)) = draws w.
Proof. destruct w. run_mission. repeat split. Qed.

Lemma after_setup_summary (env : Env) (goal_corner : string) (w : World) :
  reads (after_setup env goal_corner w) = reads w /\
  draws (after_setup env goal_corner w) = draws w /\
  (delays_nonneg env -> clock w + 1 <= clock (after_setup env goal_corner w)).
Proof.
  destruct w as [c r d k tr]. run_mission. repeat split.
  intros Hd. delays_of Hd. lra.
Qed.

Lemma finish_summary (env : Env) (w : World) :
  draws (snd (finish env w)) = draws w /\
  (delays_nonneg env -> clock w <= clock (snd (finish env w))).
Proof.
  destruct w as [c r d k tr]. run_mission. split; [reflexivity |].
  intros Hd. delays_of Hd. lra.
Qed.

Lemma inject_nat_add (a b : nat) :
  inject_Z (Z.of_nat (a + b)) == inject_Z (Z.of_nat a) + inject_Z (Z.of_nat b).
Proof. rewrite Nat2Z.inj_add, inject_Z_plus. reflexivity. Qed.

(** A cycle takes at least 0.3 seconds for each command it issues. *)
Lemma cycle_clock_moves (env : Env) (target : Q) (st : LoopState) (w : World) :
  delays_nonneg env ->
  clock w
  + 0.3 * inject_Z (Z.of_nat (length (moves_of (cycle_events env target st w))))
  <= clock (snd (cycle env target st w)).
Proof.
  intros Hd.
  destruct (cycle_events_views env target st w) as (_ & _ & Hlen & _).
  rewrite Hlen. destruct (collision_detected env st w) eqn:Hdet.
  - rewrite (cycle_escape env target st w Hdet). cbn [snd clock].
    change (inject_Z (Z.of_nat 3)) with 3. delays_of Hd. lra.
  - rewrite (cycle_seek env target st w Hdet). cbn [snd clock].
    change (inject_Z (Z.of_nat 1)) with 1. delays_of Hd. lra.
Qed.

(** The commands of the loop are paid for by the time left on the clock. *)
Lemma while_loop_moves (env : Env) (target start : Q) :
  delays_nonneg env ->
  forall (fuel : nat) (st st' : LoopState) (w w' : World),
    while_loop env fuel target start st w = (Some st', w') ->
    (run_duration_seconds <= clock w - start ->
     length (moves_of (trace w')) = length (moves_of (trace w))) /\
    (clock w - start < run_duration_seconds ->
     0.3 * inject_Z (Z.of_nat (length (moves_of (trace w'))))
     <= 0.3 * inject_Z (Z.of_nat (length (moves_of (trace w))))
        + (run_duration_seconds - (clock w - start)) + 0.9).
Proof.
  intros Hd fuel. induction fuel as [|fuel IH]; intros st st' w w' Hloop.
  - discriminate.
  - rewrite while_loop_S in Hloop.
    destruct (guard start (clock w)) eqn:Hg.
    + apply guard_true in Hg.
      destruct (IH _ _ _ _ Hloop) as [Hsame Hpaid].
      pose proof (cycle_clock_moves env target st w Hd) as Hclock.
      destruct (cycle_summary env target st w) as (Ht & _).
      destruct (cycle_events_views env target st w) as (_ & _ & Hlen & _).
      rewrite Ht, moves_of_app, length_app in Hsame, Hpaid.
      rewrite inject_nat_add in Hpaid.
      set (m := inject_Z (Z.of_nat (length (moves_of (trace w))))) in *.
      set (d := inject_Z (Z.of_nat (length (moves_of (cycle_events env target st w))))) in *.
      assert (d <= 3) as Hd3.
      { subst d. rewrite Hlen. destruct (collision_detected env st w);
          vm_compute; discriminate. }
      split; [lra |]. intros _.
      destruct (Qlt_le_dec (clock (snd (cycle env target st w)) - start)
                  run_duration_seconds) as [Hin|Hout].
      * specialize (Hpaid Hin). lra.
      * specialize (Hsame Hout).
        rewrite Hsame, Nat2Z.inj_add, inject_Z_plus. fold m. fold d.
        unfold run_duration_seconds in *. lra.
    + injection Hloop as <- <-. apply guard_false in Hg.
      split; [reflexivity | lra].
Qed.

(** What a mission to a valid corner amounts to. *)
Lemma mission_total (env : Env) (goal_corner : string) (target : Z)
    (fuel : nat) (w : World) :
  delays_nonneg env ->
  target_headings !! goal_corner = Some target ->
  (301 <= fuel)%nat ->
  exists k,
    fst (run_autonomous_mission env fuel goal_corner w) = Returned (count_at env k) /\
    goals_of (trace (snd (run_autonomous_mission env fuel goal_corner w)))
      = goals_of (trace w) ++ [goal_corner] /\
    resets_of (trace (snd (run_autonomous_mission env fuel goal_corner w)))
      = S (resets_of (trace w)) /\
    clock w + 91 <= clock (snd (run_autonomous_mission env fuel goal_corner w)) /\
    (length (moves_of (trace (snd (run_autonomous_mission env fuel goal_corner w))))
     <= length (moves_of (trace w)) + 304)%nat.
Proof.
  intros Hd Hsome Hfuel. destruct fuel as [|n]; [lia |].
  rewrite (run_mission_valid env (S n) goal_corner target w Hsome).
  set (w1 := after_setup env goal_corner w).
  destruct (after_setup_summary env goal_corner w) as (_ & _ & Hc1).
  specialize (Hc1 Hd). fold w1 in Hc1.
  pose proof (after_setup_trace env goal_corner w) as Ht1. fold w1 in Ht1.
  destruct (get_collision_count_summary env w1) as (_ & Ht2 & _ & _).
  pose proof (get_collision_count_clock env w1 Hd) as Hc2.
  set (w2 := snd (get_collision_count env w1)) in *.
  destruct (while_loop_exits env (inject_Z target) (clock w1) Hd n
              (mission_start (next_read env w1)) w2)
    as (st & w_exit & Hloop & Hdue).
  { assert (300 <= inject_Z (Z.of_nat n)) as Hn.
    { change 300 with (inject_Z 300). rewrite <- Zle_Qle. lia. }
    unfold run_duration_seconds. lra. }
  rewrite Hloop.
  destruct (while_loop_cycles _ _ _ _ _ _ _ _ Hloop) as [m Hm].
  destruct (cycles_counts env (inject_Z target) m
              (mission_start (next_read env w1)) w2) as (_ & _ & _ & Hg & Hz).
  rewrite Hm in Hg, Hz. cbn [snd] in Hg, Hz.
  destruct (while_loop_moves env (inject_Z target) (clock w1) Hd _ _ _ _ _ Hloop)
    as [Hsame Hpaid].
  destruct (finish_spec env w_exit) as (Hres & _ & Ht3).
  destruct (finish_summary env w_exit) as (_ & Hc3). specialize (Hc3 Hd).
  exists (reads w_exit). rewrite Hres, Ht3.
  rewrite goals_of_app, resets_of_app, moves_of_app, length_app, Hg, Hz, Ht2, Ht1.
  rewrite !goals_of_app, !resets_of_app.
  split; [reflexivity |].
  split; [cbn [goals_of flat_map app]; now rewrite !app_nil_r |].
  split; [cbn [resets_of flat_map app length]; lia |].
  split; [unfold run_duration_seconds in Hdue; lra |].
  assert (length (moves_of (trace w2)) = length (moves_of (trace w))) as Hm2.
  { rewrite Ht2, Ht1, !moves_of_app, !length_app.
    cbn [moves_of flat_map app length]. lia. }
  cbn [moves_of flat_map app length].
  destruct (Qlt_le_dec (clock w2 - clock w1) run_duration_seconds) as [Hin|Hout].
  - specialize (Hpaid Hin). rewrite Hm2 in Hpaid.
    assert (inject_Z (Z.of_nat (length (moves_of (trace w_exit))))
            <= inject_Z (Z.of_nat (length (moves_of (trace w))) + 303)) as Hq.
    { rewrite inject_Z_plus. change (inject_Z 303) with 303.
      unfold run_duration_seconds in *. lra. }
    rewrite <- Zle_Qle in Hq. lia.
  - rewrite (Hsame Hout), Hm2. lia.
Qed.

(** X12: whenever a mission returns, its trace is: one reset, one goal
    placement for the corner asked for, the one-second sleep and the first
    collision read; then the events of the poll cycles, among which there
    is no reset and no goal placement; then the stop command and the final
    read, and nothing after that. *)
Theorem mission_trace_shape
    (env : Env) (fuel : nat) (goal_corner : string) (w : World) (v : Z) :
  fst (run_autonomous_mission env fuel goal_corner w) = Returned v ->
  exists (c0 : Z) (evs : list event),
    trace (snd (run_autonomous_mission env fuel goal_corner w))
      = trace w
        ++ [PostReset; PostGoal goal_corner; Sleep 1; GetCollisions c0]
        ++ evs ++ [PostMove 0 0; GetCollisions v] /\
    goals_of evs = [] /\ resets_of evs = O /\
    (uniform_in_range env -> Forall cycle_move (moves_of evs)).
Proof.
  intros Hret.
  destruct (target_headings !! goal_corner) as [target|] eqn:Hlook.
  - rewrite (run_mission_valid env fuel goal_corner target w Hlook) in *.
    set (w1 := after_setup env goal_corner w) in *.
    pose proof (after_setup_trace env goal_corner w) as Ht1. fold w1 in Ht1.
    destruct (get_collision_count_summary env w1) as (_ & Ht2 & _ & _).
    set (w2 := snd (get_collision_count env w1)) in *.
    destruct (while_loop env fuel (inject_Z target) (clock w1)
                (mission_start (next_read env w1)) w2)
      as [[st'|] w_exit] eqn:Hloop; [| discriminate].
    destruct (while_loop_cycles _ _ _ _ _ _ _ _ Hloop) as [m Hm].
    destruct (cycles_extend_trace env (inject_Z target) m
                (mission_start (next_read env w1)) w2)
      as (evs & Ht & Hg & Hz & Hmv).
    rewrite Hm in Ht. cbn [snd] in Ht.
    destruct (finish_spec env w_exit) as (Hres & _ & Ht3).
    rewrite Hres in Hret. injection Hret as <-.
    exists (next_read env w1), evs.
    rewrite Ht3, Ht, Ht2, Ht1, <- !app_assoc.
    repeat split; assumption.
  - rewrite (run_mission_invalid env fuel goal_corner w Hlook) in Hret.
    discriminate.
Qed.

Lemma mission_trace_shape_witness :
  exists (c0 : Z) (evs : list event),
    trace (snd (run_autonomous_mission env_slow 301 "SW" w0))
      = trace w0
        ++ [PostReset; PostGoal "SW"; Sleep 1; GetCollisions c0]
        ++ evs ++ [PostMove 0 0; GetCollisions 7] /\
    goals_of evs = [] /\ resets_of evs = O /\
    (uniform_in_range env_slow -> Forall cycle_move (moves_of evs)).
Proof.
  apply (mission_trace_shape env_slow 301 "SW" w0 7).
  vm_compute. reflexivity.
Defined.

(** X13: a mission to a valid corner returns, with the result of some collision
    read; it takes at least 91 seconds (the one-second sleep and the run
    duration) and issues at most 304 motion commands, the stop command
    included, whatever the simulator answers. *)
Theorem mission_duration_and_rate
    (env : Env) (goal_corner : string) (target : Z) (fuel : nat) (w : World) :
  delays_nonneg env ->
  target_headings !! goal_corner = Some target ->
  (301 <= fuel)%nat ->
  exists k,
    fst (run_autonomous_mission env fuel goal_corner w) = Returned (count_at env k) /\
    clock w + 91 <= clock (snd (run_autonomous_mission env fuel goal_corner w)) /\
    (length (moves_of (trace (snd (run_autonomous_mission env fuel goal_corner w))))
     <= length (moves_of (trace w)) + 304)%nat.
Proof.
  intros Hd Hsome Hfuel.
  destruct (mission_total env goal_corner target fuel w Hd Hsome Hfuel)
    as (k & Hres & _ & _ & Hclock & Hmoves).
  exists k. repeat split; assumption.
Qed.

Lemma env_slow_delays : delays_nonneg env_slow.
Proof. intros n. cbn [delay_of env_slow]. lra. Defined.

Lemma mission_duration_and_rate_witness :
  exists k,
    fst (run_autonomous_mission env_slow 301 "SW" w0) = Returned (count_at env_slow k) /\
    clock w0 + 91 <= clock (snd (run_autonomous_mission env_slow 301 "SW" w0)) /\
    (length (moves_of (trace (snd (run_autonomous_mission env_slow 301 "SW" w0))))
     <= length (moves_of (trace w0)) + 304)%nat.
Proof.
  apply (mission_duration_and_rate env_slow "SW" 225 301 w0).
  - exact env_slow_delays.
  - vm_compute. reflexivity.
  - lia.
Defined.

(** X14: when every collision read gives the same value, be it a count that
    never changes or the -1 of a simulator that cannot be reached, a
    mission never escapes: it draws no random turn, issues one command per
    cycle and the stop command, and returns that value. *)
Theorem constant_answers_never_escape
    (env : Env) (goal_corner : string) (target : Z) (fuel : nat) (w : World)
    (c : Z) :
  (forall i, count_at env i = c) ->
  delays_nonneg env ->
  target_headings !! goal_corner = Some target ->
  (301 <= fuel)%nat ->
  fst (run_autonomous_mission env fuel goal_corner w) = Returned c /\
  draws (snd (run_autonomous_mission env fuel goal_corner w)) = draws w /\
  exists cycles_run,
    length (moves_of (trace (snd (run_autonomous_mission env fuel goal_corner w))))
    = (length (moves_of (trace w)) + cycles_run + 1)%nat /\
    reads (snd (run_autonomous_mission env fuel goal_corner w))
    = (reads w + 2 * cycles_run + 2)%nat.
Proof.
  intros Hconst Hd Hsome Hfuel. destruct fuel as [|n]; [lia |].
  rewrite (run_mission_valid env (S n) goal_corner target w Hsome).
  set (w1 := after_setup env goal_corner w).
  destruct (after_setup_summary env goal_corner w) as (Hr1 & Hd1 & _).
  pose proof (after_setup_trace env goal_corner w) as Ht1.
  fold w1 in Hr1, Hd1, Ht1.
  destruct (get_collision_count_summary env w1) as (_ & Ht2 & Hr2 & Hd2).
  pose proof (get_collision_count_clock env w1 Hd) as Hc2.
  set (w2 := snd (get_collision_count env w1)) in *.
  destruct (while_loop_exits env (inject_Z target) (clock w1) Hd n
              (mission_start (next_read env w1)) w2)
    as (st & w_exit & Hloop & Hdue).
  { assert (300 <= inject_Z (Z.of_nat n)) as Hn.
    { change 300 with (inject_Z 300). rewrite <- Zle_Qle. lia. }
    unfold run_duration_seconds. lra. }
  rewrite Hloop.
  destruct (while_loop_cycles _ _ _ _ _ _ _ _ Hloop) as [m Hm].
  destruct (seeking_when_no_rise env (inject_Z target) m
              (mission_start (next_read env w1)) w2) as [_ Hesc].
  { cbn [mission_start last_collision_count]. unfold next_read.
    fold (count_at env (reads w1)). rewrite !Hconst. lia. }
  { intros k _. rewrite !Hconst. lia. }
  destruct (cycles_counts env (inject_Z target) m
              (mission_start (next_read env w1)) w2) as (Hr & Hdr & Hmv & _).
  rewrite Hm in Hr, Hdr, Hmv. rewrite Hesc in Hdr, Hmv.
  cbn [snd] in Hr, Hdr, Hmv.
  destruct (finish_spec env w_exit) as (Hres & Hr3 & Ht3).
  destruct (finish_summary env w_exit) as (Hd3 & _).
  rewrite Hres, Hd3, Hdr, Hd2, Hd1. unfold next_read.
  fold (count_at env (reads w_exit)). rewrite Hconst.
  split; [reflexivity | split; [lia |]].
  exists m. rewrite Hr3, Hr, Hr2, Hr1, Ht3, moves_of_app, length_app, Hmv.
  rewrite Ht2, Ht1, !moves_of_app, !length_app.
  cbn [moves_of flat_map app length]. split; lia.
Qed.

Lemma env_down_constant : forall i, count_at env_down i = (-1)%Z.
Proof. intros i. reflexivity. Defined.

Lemma env_down_delays : delays_nonneg env_down.
Proof. intros n. cbn [delay_of env_down]. lra. Defined.

Lemma constant_answers_never_escape_witness :
  fst (run_autonomous_mission env_down 301 "NW" w0) = Returned (-1) /\
  draws (snd (run_autonomous_mission env_down 301 "NW" w0)) = draws w0 /\
  exists cycles_run,
    length (moves_of (trace (snd (run_autonomous_mission env_down 301 "NW" w0))))
    = (length (moves_of (trace w0)) + cycles_run + 1)%nat /\
    reads (snd (run_autonomous_mission env_down 301 "NW" w0))
    = (reads w0 + 2 * cycles_run + 2)%nat.
Proof.
  apply (constant_answers_never_escape env_down "NW" 315 301 w0 (-1)).
  - exact env_down_constant.
  - exact env_down_delays.
  - vm_compute. reflexivity.
  - lia.
Defined.

(** ** The challenge levels *)

Lemma set_obstacle_motion_summary (env : Env) (enabled : bool) (speed : Q)
    (lw : LevelWorld) :
  trace (sim (set_obstacle_motion env enabled speed lw)) = trace (sim lw) /\
  motion_log (set_obstacle_motion env enabled speed lw)
    = motion_log lw ++ [(length (trace (sim lw)), enabled, speed)] /\
  (delays_nonneg env ->
   clock (sim lw) <= clock (sim (set_obstacle_motion env enabled speed lw))).
Proof.
  destruct lw as [[c r d k tr] ml]. unfold set_obstacle_motion, block.
  cbn [sim motion_log snd trace clock calls]. repeat split.
  intros Hd. pose proof (Hd k). lra.
Qed.

Lemma accumulate_counted (total c : Z) : accumulate total c = (total + counted c)%Z.
Proof. unfold accumulate, counted. destruct (c =? -1)%Z; lia. Qed.

Lemma for_corners_cons (env : Env) (fuel : nat) (corner : string)
    (rest : list string) (total : Z) (w : World) :
  for_corners env fuel (corner :: rest) total w =
  match fst (run_autonomous_mission env fuel corner w) with
  | Returned c =>
      for_corners env fuel rest (accumulate total c)
        (snd (run_autonomous_mission env fuel corner w))
  | Raised e => (LevelRaised e, snd (run_autonomous_mission env fuel corner w))
  | OutOfFuel => (LevelOutOfFuel, snd (run_autonomous_mission env fuel corner w))
  end.
Proof.
  cbn [for_corners]. unfold bind.
  destruct (run_autonomous_mission env fuel corner w) as [[c|e|] w']; reflexivity.
Qed.

(** The loop over the corners: every mission returns the answer to some
    read, and the total adds up the answers that are not -1. *)
Lemma for_corners_total (env : Env) (fuel : nat) :
  delays_nonneg env -> (301 <= fuel)%nat ->
  forall (corners : list string) (total : Z) (w : World),
    Forall (fun corner => is_Some (target_headings !! corner)) corners ->
    exists ks : list nat,
      length ks = length corners /\
      fst (for_corners env fuel corners total w)
        = LevelDone (total + fold_right Z.add 0%Z
                               (map (fun k => counted (count_at env k)) ks))%Z /\
      goals_of (trace (snd (for_corners env fuel corners total w)))
        = goals_of (trace w) ++ corners /\
      resets_of (trace (snd (for_corners env fuel corners total w)))
        = (resets_of (trace w) + length corners)%nat /\
      clock w + 91 * inject_Z (Z.of_nat (length corners))
        <= clock (snd (for_corners env fuel corners total w)).
Proof.
  intros Hd Hfuel corners.
  induction corners as [|corner rest IH]; intros total w Hvalid.
  - exists []. cbn [for_corners ret fst snd length map fold_right].
    rewrite app_nil_r, Z.add_0_r, Nat.add_0_r.
    change (inject_Z (Z.of_nat 0)) with 0. repeat split. lra.
  - inversion Hvalid as [|? ? [target Htarget] Hrest]; subst.
    destruct (mission_total env corner target fuel w Hd Htarget Hfuel)
      as (k & Hres & Hg & Hz & Hc & _).
    rewrite for_corners_cons, Hres.
    destruct (IH (accumulate total (count_at env k))
                (snd (run_autonomous_mission env fuel corner w)) Hrest)
      as (ks & Hlen & Htot & Hg' & Hz' & Hc').
    exists (k :: ks). rewrite Htot, Hg', Hz', Hg, Hz.
    cbn [length map fold_right]. rewrite <- app_assoc.
    split; [lia | split; [| split; [reflexivity | split; [lia |]]]].
    + rewrite accumulate_counted. f_equal. lia.
    + rewrite inject_nat_S. lra.
Qed.

Lemma goal_corners_valid :
  Forall (fun corner => is_Some (target_headings !! corner)) goal_corners.
Proof.
  unfold goal_corners.
  repeat (constructor; [eexists; vm_compute; reflexivity |]). constructor.
Qed.

Lemma run_level_unfold (env : Env) (fuel : nat) (enabled : bool) (speed : Q)
    (lw : LevelWorld) :
  run_level env fuel enabled speed lw =
  (match fst (for_corners env fuel goal_corners 0
                (sim (set_obstacle_motion env enabled speed lw))) with
   | LevelDone total => LevelDone (average_of total)
   | LevelRaised e => LevelRaised e
   | LevelOutOfFuel => LevelOutOfFuel
   end,
   mkLevel (snd (for_corners env fuel goal_corners 0
                   (sim (set_obstacle_motion env enabled speed lw))))
           (motion_log (set_obstacle_motion env enabled speed lw))).
Proof.
  unfold run_level.
  destruct (for_corners env fuel goal_corners 0
              (sim (set_obstacle_motion env enabled speed lw))). reflexivity.
Qed.

Lemma run_level_total (env : Env) (fuel : nat) (enabled : bool) (speed : Q)
    (lw : LevelWorld) :
  delays_nonneg env -> (301 <= fuel)%nat ->
  exists ks : list nat,
    length ks = 4%nat /\
    fst (run_level env fuel enabled speed lw)
      = LevelDone (average_of
                     (fold_right Z.add 0%Z
                        (map (fun k => counted (count_at env k)) ks))) /\
    motion_log (snd (run_level env fuel enabled speed lw))
      = motion_log lw ++ [(length (trace (sim lw)), enabled, speed)] /\
    goals_of (trace (sim (snd (run_level env fuel enabled speed lw))))
      = goals_of (trace (sim lw)) ++ goal_corners /\
    resets_of (trace (sim (snd (run_level env fuel enabled speed lw))))
      = (resets_of (trace (sim lw)) + 4)%nat /\
    clock (sim lw) + 364
      <= clock (sim (snd (run_level env fuel enabled speed lw))).
Proof.
  intros Hd Hfuel. rewrite run_level_unfold.
  destruct (set_obstacle_motion_summary env enabled speed lw) as (Ht & Hl & Hc).
  specialize (Hc Hd).
  destruct (for_corners_total env fuel Hd Hfuel goal_corners 0
              (sim (set_obstacle_motion env enabled speed lw)) goal_corners_valid)
    as (ks & Hlen & Htot & Hg & Hz & Hclock).
  exists ks. cbn [fst snd sim motion_log]. rewrite Htot, Hg, Hz, Hl, Ht, Z.add_0_l.
  change (length goal_corners) with 4%nat in *.
  change (inject_Z (Z.of_nat 4)) with 4 in Hclock.
  repeat split; try assumption. lra.
Qed.

Lemma counted_sum_bounds (env : Env) (B : Z) (ks : list nat) :
  (forall i, (-1 <= count_at env i <= B)%Z) -> (0 <= B)%Z ->
  (0 <= fold_right Z.add 0 (map (fun k => counted (count_at env k)) ks)
   <= B * Z.of_nat (length ks))%Z.
Proof.
  intros Hb HB. induction ks as [|k ks IH]; cbn [map fold_right length].
  - lia.
  - pose proof (Hb k) as Hk. unfold counted at 1 3.
    destruct (Z.eqb_spec (count_at env k) (-1)); nia.
Qed.



(** X16: when every answer of the simulator is a failure or a count of at most
    [B], the average a level prints lies between 0 and [B]. *)
Theorem level_average_bounds
    (env : Env) (fuel : nat) (enabled : bool) (speed : Q) (lw : LevelWorld)
    (B : Z) :
  (forall i, (-1 <= count_at env i <= B)%Z) -> (0 <= B)%Z ->
  delays_nonneg env -> (301 <= fuel)%nat ->
  exists average,
    fst (run_level env fuel enabled speed lw) = LevelDone average /\
    0 <= average <= inject_Z B.
Proof.
  intros Hb HB Hd Hfuel.
  destruct (run_level_total env fuel enabled speed lw Hd Hfuel)
    as (ks & Hlen & Hres & _).
  eexists. split; [exact Hres |].
  pose proof (counted_sum_bounds env B ks Hb HB) as [Hlo Hhi].
  rewrite Hlen in Hhi.
  set (total := fold_right Z.add 0%Z (map (fun k => counted (count_at env k)) ks)) in *.
  unfold average_of. change (inject_Z (Z.of_nat (length goal_corners))) with 4.
  rewrite Zle_Qle in Hlo, Hhi. rewrite inject_Z_mult in Hhi.
  change (inject_Z (Z.of_nat 4)) with 4 in Hhi. change (inject_Z 0) with 0 in Hlo.
  assert (inject_Z total / 4 == inject_Z total * (1 # 4)) as -> by (field; discriminate).
  split; lra.
Qed.

Lemma env_slow_bounds : forall i, (-1 <= count_at env_slow i <= 7)%Z.
Proof.
  intros i. unfold count_at. cbn [read_of env_slow]. rewrite count_counting. lia.
Defined.

Lemma level_average_bounds_witness :
  exists average,
    fst (run_level_2 env_slow 301 lw0) = LevelDone average /\
    0 <= average <= inject_Z 7.
Proof.
  apply (level_average_bounds env_slow 301 true 0.05 lw0 7).
  - exact env_slow_bounds.
  - lia.
  - exact env_slow_delays.
  - lia.
Defined.

(** X17: when the simulator cannot be reached (every collision read fails), a
    level still runs its four missions to the end and prints the average
    0, the average of a level without any collision. *)
Theorem level_with_simulator_down
    (env : Env) (fuel : nat) (enabled : bool) (speed : Q) (lw : LevelWorld) :
  (forall i, count_at env i = (-1)%Z) ->
  delays_nonneg env -> (301 <= fuel)%nat ->
  fst (run_level env fuel enabled speed lw) = LevelDone (average_of 0) /\
  average_of 0 == 0.
Proof.
  intros Hdown Hd Hfuel.
  destruct (run_level_total env fuel enabled speed lw Hd Hfuel)
    as (ks & _ & Hres & _).
  rewrite Hres. split; [| vm_compute; reflexivity].
  do 2 f_equal. clear Hres. induction ks as [|k ks IH]; [reflexivity |].
  cbn [map fold_right]. rewrite IH, Hdown. reflexivity.
Qed.

Lemma level_with_simulator_down_witness :
  fst (run_level_1 env_down 301 lw0) = LevelDone (average_of 0) /\
  average_of 0 == 0.
Proof.
  apply (level_with_simulator_down env_down 301 false default_obstacle_speed lw0).
  - exact env_down_constant.
  - exact env_down_delays.
  - lia.
Defined.




